(** * The Dify client SDK: request dispatch and the client hierarchy

    A shallow embedding of the JavaScript client ([routes], [DifyClient],
    [CompletionClient], [ChatClient]) and the properties of its request
    dispatcher.

    JavaScript values are a small inductive type; object literals, the
    query object and the header object are finite maps from property names
    to values. A method call runs in a state monad over the client instance
    ([this]) and the list of requests handed to the HTTP transport. *)

From Stdlib Require Import ZArith List.
From stdpp Require Import gmap strings list fin_maps pretty.
Import ListNotations.

Set Warnings "-register-all".

(** ** JavaScript values *)

(** Numbers are the integers ([VNum]) and [NaN]; strings are sequences of
    code units; [VFormData] is the host object a file upload carries. *)
Inductive value : Type :=
| VUndefined
| VNull
| VBool (b : bool)
| VNum (n : Z)
| VNaN
| VStr (s : string)
| VArr (elems : list value)
| VObj (props : gmap string value)
| VFormData (entries : list (string * string)).

(** [ToBoolean]: what [if (v)] and [v ? a : b] test. *)
Definition truthy (v : value) : bool :=
  match v with
  | VUndefined | VNull | VNaN => false
  | VBool b => b
  | VNum n => negb (n =? 0)%Z
  | VStr s => negb (String.eqb s "")
  | VArr _ | VObj _ | VFormData _ => true
  end.

(** A default parameter [x = d] takes the default exactly when the argument
    is omitted or [undefined]. *)
Definition default_arg (d v : value) : value :=
  match v with
  | VUndefined => d
  | _ => v
  end.

(** The [i]-th actual argument of a call; a missing one reads [undefined]. *)
Definition arg (i : nat) (args : list value) : value := nth i args VUndefined.

Definition join (sep : string) (parts : list string) : string :=
  match parts with
  | [] => ""
  | p :: ps => fold_left (fun acc q => acc +:+ sep +:+ q) ps p
  end.

(** [ToString], as a template literal applies it to each substitution. *)
Fixpoint ToString (v : value) : string :=
  match v with
  | VUndefined => "undefined"
  | VNull => "null"
  | VBool true => "true"
  | VBool false => "false"
  | VNum n => pretty n
  | VNaN => "NaN"
  | VStr s => s
  | VArr elems =>
      join "," (map (fun e => match e with
                              | VUndefined | VNull => ""
                              | _ => ToString e
                              end) elems)
  | VObj _ => "[object Object]"
  | VFormData _ => "[object FormData]"
  end.

(** An object literal [{ k1: v1, ..., kn: vn }]: properties are defined in
    source order, a repeated key keeping the last value. *)
Definition object_literal (fields : list (string * value)) : gmap string value :=
  fold_left (fun o kv => <[kv.1 := kv.2]> o) fields ∅.

(** The characters of a string, one single-character string each. *)
Fixpoint chars (s : string) : list value :=
  match s with
  | EmptyString => []
  | String c rest => VStr (String c EmptyString) :: chars rest
  end.

Definition indexed (l : list value) : gmap string value :=
  list_to_map (imap (fun i x => (pretty i, x)) l).

(** The own enumerable properties that an object spread [{...v}] copies. *)
Definition own_properties (v : value) : gmap string value :=
  match v with
  | VObj props => props
  | VArr elems => indexed elems
  | VStr s => indexed (chars s)
  | _ => ∅
  end.

(** One step [...v] of an object literal under construction: the
    properties of [v] are written over those already in [o]. *)
Definition spread (o : gmap string value) (v : value) : gmap string value :=
  own_properties v ∪ o.

(** Reading the property [k] of [v]: [None] when [v] has no such own
    property. *)
Definition property (v : value) (k : string) : option value :=
  own_properties v !! k.

(** The names of the own properties of [v]. *)
Definition keys (v : value) : gset string := dom (own_properties v).

(** ** The HTTP transport *)

Module Axios.

(** The request object handed to [axios({...})]. *)
Record Config : Type := {
  method : value;
  url : string;
  data : value;
  params : value;
  headers : gmap string value;
  responseType : string
}.

(** The promise a transport call returns, by the way it settles. *)
Inductive Promise : Type :=
| Fulfilled (response : value)
| Rejected (reason : value)
| Pending.

End Axios.

(** ** The endpoint registry *)

Module routes.

Record Route : Type := {
  method : string;
  url : list value -> string
}.

Definition application : Route :=
  {| method := "GET"; url := fun _ => "/parameters" |}.

Definition feedback : Route :=
  {| method := "POST";
     url := fun args =>
       let message_id := arg 0 args in
       "/messages/" +:+ ToString message_id +:+ "/feedbacks" |}.

Definition createCompletionMessage : Route :=
  {| method := "POST"; url := fun _ => "/completion-messages" |}.

Definition createChatMessage : Route :=
  {| method := "POST"; url := fun _ => "/chat-messages" |}.

Definition getConversationMessages : Route :=
  {| method := "GET"; url := fun _ => "/messages" |}.

Definition getConversations : Route :=
  {| method := "GET"; url := fun _ => "/conversations" |}.

Definition renameConversation : Route :=
  {| method := "POST";
     url := fun args =>
       let conversation_id := arg 0 args in
       "/conversations/" +:+ ToString conversation_id +:+ "/name" |}.

Definition deleteConversation : Route :=
  {| method := "DELETE";
     url := fun args =>
       let conversation_id := arg 0 args in
       "/conversations/" +:+ ToString conversation_id |}.

Definition fileUpload : Route :=
  {| method := "POST"; url := fun _ => "/files/upload" |}.

Definition runWorkflow : Route :=
  {| method := "POST"; url := fun _ => "/workflows/run" |}.

End routes.

(** ** Client state and the method-call monad *)

Definition BASE_URL : string := "https://api.dify.ai/v1".

(** The fields of a client instance. *)
Record DifyClient : Type := {
  apiKey : value;
  baseUrl : value
}.

(** [new DifyClient(apiKey, baseUrl = BASE_URL)]. *)
Definition constructor (apiKey baseUrl : value) : DifyClient :=
  {| apiKey := apiKey; baseUrl := default_arg (VStr BASE_URL) baseUrl |}.

(** What a method call can observe and change: the instance it is called
    on, and the requests handed to the transport so far, oldest first. *)
Record World : Type := {
  this : DifyClient;
  requests : list Axios.Config
}.

(** A call either returns or throws synchronously. *)
Inductive Completion (A : Type) : Type :=
| Normal (result : A)
| Throw (error : value).
Arguments Normal {A} result.
Arguments Throw {A} error.

Definition M (A : Type) : Type := World -> Completion A * World.

Definition ret {A} (a : A) : M A := fun w => (Normal a, w).

Definition bind {A B} (m : M A) (k : A -> M B) : M B :=
  fun w =>
    match m w with
    | (Normal a, w') => k a w'
    | (Throw e, w') => (Throw e, w')
    end.

Notation "x <- m ;; k" := (bind m (fun x => k))
  (at level 100, m at next level, right associativity).

Definition get_this : M DifyClient := fun w => (Normal (this w), w).

Definition set_apiKey (v : value) : M unit :=
  fun w =>
    (Normal tt,
     {| this := {| apiKey := v; baseUrl := baseUrl (this w) |};
        requests := requests w |}).

(** [await p] inside an async function whose remaining body is [k]: the
    function's own promise rejects with the reason [p] rejects with, and
    stays pending while [p] does. *)
Definition await (p : Axios.Promise) (k : value -> Axios.Promise) : Axios.Promise :=
  match p with
  | Axios.Fulfilled response => k response
  | Axios.Rejected reason => Axios.Rejected reason
  | Axios.Pending => Axios.Pending
  end.

(** The arguments of one [this.sendRequest(...)] call; an argument left
    out is [VUndefined]. *)
Record SendRequestArgs : Type := {
  arg_method : value;
  arg_endpoint : value;
  arg_data : value;
  arg_params : value;
  arg_stream : value;
  arg_headerParams : value
}.

(** What a method returns: nothing, or a promise. *)
Inductive Returned : Type :=
| ReturnedUndefined
| ReturnedPromise (p : Axios.Promise).

(** ** The clients *)

Section Clients.

(** The transport: how the promise of a request settles, given the
    requests made before it. *)
Variable axios : list Axios.Config -> Axios.Config -> Axios.Promise.

(** [axios({...})]: the request is handed to the transport, which
    returns its promise. *)
Definition axios_call (config : Axios.Config) : M Axios.Promise :=
  fun w =>
    (Normal (axios (requests w) config),
     {| this := this w; requests := requests w ++ [config] |}).

(** *** DifyClient *)

Definition updateApiKey (apiKey : value) : M Returned :=
  _ <- set_apiKey apiKey ;;
  ret ReturnedUndefined.

Definition sendRequest (args : SendRequestArgs) : M Axios.Promise :=
  let method := arg_method args in
  let endpoint := arg_endpoint args in
  let data := default_arg VNull (arg_data args) in
  let params := default_arg VNull (arg_params args) in
  let stream := default_arg (VBool false) (arg_stream args) in
  let headerParams := default_arg (VObj ∅) (arg_headerParams args) in
  self <- get_this ;;
  let headers :=
    spread
      (spread ∅
         (VObj (object_literal
                  [("Authorization", VStr ("Bearer " +:+ ToString (apiKey self)));
                   ("Content-Type", VStr "application/json")])))
      headerParams in
  let url := ToString (baseUrl self) +:+ ToString endpoint in
  if truthy stream then
    promise <- axios_call
      {| Axios.method := method; Axios.url := url; Axios.data := data;
         Axios.params := params; Axios.headers := headers;
         Axios.responseType := "stream" |} ;;
    ret (await promise (fun response => Axios.Fulfilled response))
  else
    promise <- axios_call
      {| Axios.method := method; Axios.url := url; Axios.data := data;
         Axios.params := params; Axios.headers := headers;
         Axios.responseType := "json" |} ;;
    ret (await promise (fun response => Axios.Fulfilled response)).

(** Each operation below ends in [return this.sendRequest(...)];
    [<operation>_args] is the argument list of that call. *)

Definition messageFeedback_args (message_id rating user : value) : SendRequestArgs :=
  let data := VObj (object_literal [("rating", rating); ("user", user)]) in
  {| arg_method := VStr (routes.method routes.feedback);
     arg_endpoint := VStr (routes.url routes.feedback [message_id]);
     arg_data := data;
     arg_params := VUndefined;
     arg_stream := VUndefined;
     arg_headerParams := VUndefined |}.

Definition messageFeedback (message_id rating user : value) : M Axios.Promise :=
  sendRequest (messageFeedback_args message_id rating user).

Definition getApplicationParameters_args (user : value) : SendRequestArgs :=
  let params := VObj (object_literal [("user", user)]) in
  {| arg_method := VStr (routes.method routes.application);
     arg_endpoint := VStr (routes.url routes.application []);
     arg_data := VNull;
     arg_params := params;
     arg_stream := VUndefined;
     arg_headerParams := VUndefined |}.

Definition getApplicationParameters (user : value) : M Axios.Promise :=
  sendRequest (getApplicationParameters_args user).

Definition fileUpload_args (data : value) : SendRequestArgs :=
  {| arg_method := VStr (routes.method routes.fileUpload);
     arg_endpoint := VStr (routes.url routes.fileUpload []);
     arg_data := data;
     arg_params := VNull;
     arg_stream := VBool false;
     arg_headerParams :=
       VObj (object_literal [("Content-Type", VStr "multipart/form-data")]) |}.

Definition fileUpload (data : value) : M Axios.Promise :=
  sendRequest (fileUpload_args data).

(** *** CompletionClient extends DifyClient *)

Definition createCompletionMessage_args (inputs user stream files : value)
  : SendRequestArgs :=
  let stream := default_arg (VBool false) stream in
  let files := default_arg VNull files in
  let data :=
    VObj (object_literal
            [("inputs", inputs);
             ("user", user);
             ("response_mode",
               if truthy stream then VStr "streaming" else VStr "blocking");
             ("files", files)]) in
  {| arg_method := VStr (routes.method routes.createCompletionMessage);
     arg_endpoint := VStr (routes.url routes.createCompletionMessage []);
     arg_data := data;
     arg_params := VNull;
     arg_stream := stream;
     arg_headerParams := VUndefined |}.

Definition createCompletionMessage (inputs user stream files : value)
  : M Axios.Promise :=
  sendRequest (createCompletionMessage_args inputs user stream files).

Definition runWorkflow_args (inputs user stream files : value) : SendRequestArgs :=
  let stream := default_arg (VBool false) stream in
  let files := default_arg VNull files in
  let data :=
    VObj (object_literal
            [("inputs", inputs);
             ("user", user);
             ("response_mode",
               if truthy stream then VStr "streaming" else VStr "blocking")]) in
  {| arg_method := VStr (routes.method routes.runWorkflow);
     arg_endpoint := VStr (routes.url routes.runWorkflow []);
     arg_data := data;
     arg_params := VNull;
     arg_stream := stream;
     arg_headerParams := VUndefined |}.

Definition runWorkflow (inputs user stream files : value) : M Axios.Promise :=
  sendRequest (runWorkflow_args inputs user stream files).

(** *** ChatClient extends DifyClient *)

Definition createChatMessage_args
  (inputs query user stream conversation_id files : value) : SendRequestArgs :=
  let stream := default_arg (VBool false) stream in
  let conversation_id := default_arg VNull conversation_id in
  let files := default_arg VNull files in
  let data :=
    object_literal
      [("inputs", inputs);
       ("query", query);
       ("user", user);
       ("response_mode",
         if truthy stream then VStr "streaming" else VStr "blocking");
       ("files", files)] in
  let data :=
    if truthy conversation_id
    then <["conversation_id" := conversation_id]> data
    else data in
  {| arg_method := VStr (routes.method routes.createChatMessage);
     arg_endpoint := VStr (routes.url routes.createChatMessage []);
     arg_data := VObj data;
     arg_params := VNull;
     arg_stream := stream;
     arg_headerParams := VUndefined |}.

Definition createChatMessage
  (inputs query user stream conversation_id files : value) : M Axios.Promise :=
  sendRequest (createChatMessage_args inputs query user stream conversation_id files).

Definition getConversationMessages_args
  (user conversation_id first_id limit : value) : SendRequestArgs :=
  let conversation_id := default_arg (VStr "") conversation_id in
  let first_id := default_arg VNull first_id in
  let limit := default_arg VNull limit in
  let params := object_literal [("user", user)] in
  let params :=
    if truthy conversation_id
    then <["conversation_id" := conversation_id]> params
    else params in
  let params :=
    if truthy first_id then <["first_id" := first_id]> params else params in
  let params :=
    if truthy limit then <["limit" := limit]> params else params in
  {| arg_method := VStr (routes.method routes.getConversationMessages);
     arg_endpoint := VStr (routes.url routes.getConversationMessages []);
     arg_data := VNull;
     arg_params := VObj params;
     arg_stream := VUndefined;
     arg_headerParams := VUndefined |}.

Definition getConversationMessages
  (user conversation_id first_id limit : value) : M Axios.Promise :=
  sendRequest (getConversationMessages_args user conversation_id first_id limit).

Definition getConversations_args (user first_id limit pinned : value)
  : SendRequestArgs :=
  let first_id := default_arg VNull first_id in
  let limit := default_arg VNull limit in
  let pinned := default_arg VNull pinned in
  let params :=
    VObj (object_literal
            [("user", user); ("first_id", first_id);
             ("limit", limit); ("pinned", pinned)]) in
  {| arg_method := VStr (routes.method routes.getConversations);
     arg_endpoint := VStr (routes.url routes.getConversations []);
     arg_data := VNull;
     arg_params := params;
     arg_stream := VUndefined;
     arg_headerParams := VUndefined |}.

Definition getConversations (user first_id limit pinned : value) : M Axios.Promise :=
  sendRequest (getConversations_args user first_id limit pinned).

Definition renameConversation_args (conversation_id name user auto_generate : value)
  : SendRequestArgs :=
  let data :=
    VObj (object_literal
            [("name", name); ("user", user); ("auto_generate", auto_generate)]) in
  {| arg_method := VStr (routes.method routes.renameConversation);
     arg_endpoint := VStr (routes.url routes.renameConversation [conversation_id]);
     arg_data := data;
     arg_params := VUndefined;
     arg_stream := VUndefined;
     arg_headerParams := VUndefined |}.

Definition renameConversation (conversation_id name user auto_generate : value)
  : M Axios.Promise :=
  sendRequest (renameConversation_args conversation_id name user auto_generate).

Definition deleteConversation_args (conversation_id user : value) : SendRequestArgs :=
  let data := VObj (object_literal [("user", user)]) in
  {| arg_method := VStr (routes.method routes.deleteConversation);
     arg_endpoint := VStr (routes.url routes.deleteConversation [conversation_id]);
     arg_data := data;
     arg_params := VUndefined;
     arg_stream := VUndefined;
     arg_headerParams := VUndefined |}.

Definition deleteConversation (conversation_id user : value) : M Axios.Promise :=
  sendRequest (deleteConversation_args conversation_id user).

(** *** Calls on an instance *)

(** A call of a public method. The three classes share the instance
    fields; the calls a [CompletionClient] or a [ChatClient] instance
    accepts are those of [DifyClient] and the class's own. *)
Inductive Call : Type :=
| call_updateApiKey (apiKey : value)
| call_sendRequest (args : SendRequestArgs)
| call_messageFeedback (message_id rating user : value)
| call_getApplicationParameters (user : value)
| call_fileUpload (data : value)
| call_createCompletionMessage (inputs user stream files : value)
| call_runWorkflow (inputs user stream files : value)
| call_createChatMessage (inputs query user stream conversation_id files : value)
| call_getConversationMessages (user conversation_id first_id limit : value)
| call_getConversations (user first_id limit pinned : value)
| call_renameConversation (conversation_id name user auto_generate : value)
| call_deleteConversation (conversation_id user : value).

Definition returning_promise (m : M Axios.Promise) : M Returned :=
  p <- m ;; ret (ReturnedPromise p).

Definition invoke (c : Call) : M Returned :=
  match c with
  | call_updateApiKey k => updateApiKey k
  | call_sendRequest args => returning_promise (sendRequest args)
  | call_messageFeedback m r u => returning_promise (messageFeedback m r u)
  | call_getApplicationParameters u =>
      returning_promise (getApplicationParameters u)
  | call_fileUpload d => returning_promise (fileUpload d)
  | call_createCompletionMessage i u s f =>
      returning_promise (createCompletionMessage i u s f)
  | call_runWorkflow i u s f => returning_promise (runWorkflow i u s f)
  | call_createChatMessage i q u s c f =>
      returning_promise (createChatMessage i q u s c f)
  | call_getConversationMessages u c f l =>
      returning_promise (getConversationMessages u c f l)
  | call_getConversations u f l p =>
      returning_promise (getConversations u f l p)
  | call_renameConversation c n u a =>
      returning_promise (renameConversation c n u a)
  | call_deleteConversation c u => returning_promise (deleteConversation c u)
  end.

(** A caller making the calls one after the other, each on the world the
    previous one left (whatever its outcome). *)
Definition run (calls : list Call) (w : World) : World :=
  fold_left (fun w c => (invoke c w).2) calls w.

End Clients.

(** The [sendRequest] call a method call makes, if it makes one through a
    fixed argument list. *)
Definition dispatch_args (c : Call) : option SendRequestArgs :=
  match c with
  | call_updateApiKey _ => None
  | call_sendRequest args => Some args
  | call_messageFeedback m r u => Some (messageFeedback_args m r u)
  | call_getApplicationParameters u => Some (getApplicationParameters_args u)
  | call_fileUpload d => Some (fileUpload_args d)
  | call_createCompletionMessage i u s f => Some (createCompletionMessage_args i u s f)
  | call_runWorkflow i u s f => Some (runWorkflow_args i u s f)
  | call_createChatMessage i q u s c f => Some (createChatMessage_args i q u s c f)
  | call_getConversationMessages u c f l => Some (getConversationMessages_args u c f l)
  | call_getConversations u f l p => Some (getConversations_args u f l p)
  | call_renameConversation c n u a => Some (renameConversation_args c n u a)
  | call_deleteConversation c u => Some (deleteConversation_args c u)
  end.

(** The key an instance holds after a history of calls, read off the calls
    alone: the argument of the last [updateApiKey], or the key given at
    construction when there was none. *)
Definition latest_key (constructed_with : value) (history : list Call) : value :=
  fold_left
    (fun k c => match c with call_updateApiKey k' => k' | _ => k end)
    history constructed_with.

(** The request envelope in the words of the spec's dispatcher section:
    the given method, body and query against [baseUrl + endpointPath]; final
    headers are the two defaults overridden by the extra headers; the
    streaming flag selects how the response is handled. *)
Definition request_envelope (self : DifyClient) (args : SendRequestArgs) : Axios.Config :=
  {| Axios.method := arg_method args;
     Axios.url := ToString (baseUrl self) +:+ ToString (arg_endpoint args);
     Axios.data := default_arg VNull (arg_data args);
     Axios.params := default_arg VNull (arg_params args);
     Axios.headers :=
       own_properties (default_arg (VObj ∅) (arg_headerParams args))
       ∪ {[ "Authorization" := VStr ("Bearer " +:+ ToString (apiKey self));
            "Content-Type" := VStr "application/json" ]};
     Axios.responseType :=
       if truthy (default_arg (VBool false) (arg_stream args))
       then "stream" else "json" |}.

(** A transport that answers every request with status 500. *)
Definition status_500 : value :=
  VObj (object_literal [("status", VNum 500); ("message", VStr "Internal Server Error")]).

Definition failing_transport (_ : list Axios.Config) (_ : Axios.Config) : Axios.Promise :=
  Axios.Rejected status_500.

(** A transport that echoes the request's URL back with status 200. *)
Definition echo_transport (_ : list Axios.Config) (config : Axios.Config) : Axios.Promise :=
  Axios.Fulfilled
    (VObj (object_literal [("status", VNum 200); ("data", VStr (Axios.url config))])).

Definition fresh (self : DifyClient) : World := {| this := self; requests := [] |}.

(** ** Histories of calls *)

(** The calls that go through [sendRequest]. *)
Definition dispatches (c : Call) : bool :=
  match c with
  | call_updateApiKey _ => false
  | _ => true
  end.

(** The calls that have a [stream] parameter of their own. *)
Definition takes_stream (c : Call) : bool :=
  match c with
  | call_sendRequest _
  | call_createCompletionMessage _ _ _ _
  | call_runWorkflow _ _ _ _
  | call_createChatMessage _ _ _ _ _ _ => true
  | _ => false
  end.

(** ** The user directory helper (web/models/user.ts) *)

Module Fetch.

(** What [fetch] resolves with: the status line and the body text. *)
Record Response : Type := {
  ok : bool;
  status : Z;
  text : string
}.

(** A promise of an [A], by the way it settles. *)
Inductive Promise (A : Type) : Type :=
| Fulfilled (result : A)
| Rejected (reason : value)
| Pending.
Arguments Fulfilled {A} result.
Arguments Rejected {A} reason.
Arguments Pending {A}.

(** [p.then(f)] where [f] returns a promise, which the result adopts. *)
Definition then_ {A B} (p : Promise A) (f : A -> Promise B) : Promise B :=
  match p with
  | Fulfilled a => f a
  | Rejected reason => Rejected reason
  | Pending => Pending
  end.

Section Users.

(** The platform's [fetch], and its JSON parser: the parsed value, or the
    [SyntaxError] it raises. *)
Variable fetch : string -> Promise Response.
Variable JSON_parse : string -> value + value.

(** [r.json()]. *)
Definition json (r : Response) : Promise value :=
  match JSON_parse (text r) with
  | inl parsed => Fulfilled parsed
  | inr syntax_error => Rejected syntax_error
  end.

Definition fetchUsers (url : string) : Promise value :=
  then_ (fetch url) (fun r => json r).

End Users.

End Fetch.

(** * Properties *)

(** ** Helper lemmas *)

Example ToString_samples :
  ToString (VNum (-12)) = "-12" /\
  ToString (VArr [VNum 1; VNull; VStr "x"]) = "1,,x" /\
  ToString (VStr "sk-1") = "sk-1".
Proof. repeat split; vm_compute; reflexivity. Qed.

Example own_properties_samples :
  own_properties (VStr "ab") = {[ "0" := VStr "a"; "1" := VStr "b" ]} /\
  own_properties VNull = ∅ /\
  truthy (VStr "") = false /\
  truthy (VNum 0) = false /\
  truthy (VArr []) = true.
Proof. repeat split; reflexivity. Qed.

Lemma await_return (p : Axios.Promise) :
  await p (fun response => Axios.Fulfilled response) = p.
Proof. destruct p; reflexivity. Qed.

Lemma default_headers_literal (k : value) :
  spread ∅
    (VObj (object_literal
             [("Authorization", VStr ("Bearer " +:+ ToString k));
              ("Content-Type", VStr "application/json")]))
  = {[ "Authorization" := VStr ("Bearer " +:+ ToString k);
       "Content-Type" := VStr "application/json" ]}.
Proof.
  unfold spread, own_properties, object_literal; cbn [fold_left fst snd].
  rewrite (right_id_L ∅ (∪)).
  apply map_eq; intros i.
  rewrite !lookup_insert, ?lookup_singleton, ?lookup_empty.
  repeat case_decide; simplify_eq; done.
Qed.

(** [sendRequest] hands exactly the request envelope to the transport, once,
    and returns the transport's promise. *)
Lemma sendRequest_run axios args w :
  sendRequest axios args w =
    (Normal (axios (requests w) (request_envelope (this w) args)),
     {| this := this w;
        requests := requests w ++ [request_envelope (this w) args] |}).
Proof.
  unfold sendRequest, bind, get_this, axios_call, ret, request_envelope.
  rewrite default_headers_literal.
  destruct (truthy (default_arg (VBool false) (arg_stream args)));
    rewrite await_return; reflexivity.
Qed.

Lemma updateApiKey_run k w :
  updateApiKey k w =
    (Normal ReturnedUndefined,
     {| this := {| apiKey := k; baseUrl := baseUrl (this w) |};
        requests := requests w |}).
Proof. reflexivity. Qed.

(** A call other than [updateApiKey] is one [sendRequest] call. *)
Lemma invoke_dispatch axios call args :
  dispatch_args call = Some args ->
  invoke axios call = returning_promise (sendRequest axios args).
Proof. destruct call; intros H; inversion H; reflexivity. Qed.

Lemma dispatch_args_None call :
  dispatch_args call = None -> exists k, call = call_updateApiKey k.
Proof. destruct call; intros H; try discriminate H. eauto. Qed.

Lemma invoke_dispatch_run axios call args w :
  dispatch_args call = Some args ->
  invoke axios call w =
    (Normal (ReturnedPromise (axios (requests w) (request_envelope (this w) args))),
     {| this := this w;
        requests := requests w ++ [request_envelope (this w) args] |}).
Proof.
  intros H. rewrite (invoke_dispatch _ _ _ H).
  unfold returning_promise, bind. rewrite sendRequest_run. reflexivity.
Qed.

Lemma run_snoc axios history call w :
  run axios (history ++ [call]) w = (invoke axios call (run axios history w)).2.
Proof. unfold run. rewrite fold_left_app. reflexivity. Qed.

Lemma latest_key_snoc k0 history call :
  latest_key k0 (history ++ [call]) =
    match call with
    | call_updateApiKey k => k
    | _ => latest_key k0 history
    end.
Proof. unfold latest_key. rewrite fold_left_app. reflexivity. Qed.

(** The key field always holds the key most recently set. *)
Lemma run_apiKey axios history w :
  apiKey (this (run axios history w)) = latest_key (apiKey (this w)) history.
Proof.
  induction history as [|call history IH] using rev_ind; [reflexivity|].
  rewrite run_snoc, latest_key_snoc.
  destruct (dispatch_args call) as [args|] eqn:Hd.
  - rewrite (invoke_dispatch_run _ _ _ _ Hd). cbn.
    rewrite IH. destruct call; try reflexivity. discriminate Hd.
  - destruct (dispatch_args_None _ Hd) as [k ->]. reflexivity.
Qed.

Lemma truthy_default d v :
  truthy d = false -> truthy (default_arg d v) = truthy v.
Proof. destruct v; cbn; auto. Qed.

Lemma default_truthy d v : truthy v = true -> default_arg d v = v.
Proof. destruct v; cbn; auto; discriminate. Qed.

(** ** Updating the key *)

(** C1 (the code at the inputs the claim says are rejected): on a client
    constructed with the key "app-key", [updateApiKey("")] and
    [updateApiKey()] both return normally, nothing is thrown, and the stored
    key is overwritten with the empty string, respectively [undefined]. *)
Theorem updateApiKey_accepts_empty_key :
  let w := fresh (constructor (VStr "app-key") VUndefined) in
  updateApiKey (VStr "") w =
    (Normal ReturnedUndefined,
     fresh {| apiKey := VStr ""; baseUrl := VStr BASE_URL |}) /\
  updateApiKey VUndefined w =
    (Normal ReturnedUndefined,
     fresh {| apiKey := VUndefined; baseUrl := VStr BASE_URL |}).
Proof. split; reflexivity. Qed.

(** ** Payload shaping *)

(** C2: for a boolean [stream], each of [createCompletionMessage],
    [runWorkflow] and [createChatMessage] is the [sendRequest] call whose
    body has [response_mode] "streaming" if [stream] is true and "blocking"
    if it is false, and whose stream argument is that same [stream]. *)
Theorem response_mode_matches_stream_flag
  axios (inputs query user conversation_id files : value) (b : bool) :
  let stream := VBool b in
  let mode := VStr (if b then "streaming" else "blocking") in
  let completion := createCompletionMessage_args inputs user stream files in
  let workflow := runWorkflow_args inputs user stream files in
  let chat :=
    createChatMessage_args inputs query user stream conversation_id files in
  (createCompletionMessage axios inputs user stream files = sendRequest axios completion /\
   property (arg_data completion) "response_mode" = Some mode /\
   arg_stream completion = stream) /\
  (runWorkflow axios inputs user stream files = sendRequest axios workflow /\
   property (arg_data workflow) "response_mode" = Some mode /\
   arg_stream workflow = stream) /\
  (createChatMessage axios inputs query user stream conversation_id files
     = sendRequest axios chat /\
   property (arg_data chat) "response_mode" = Some mode /\
   arg_stream chat = stream).
Proof.
  cbn zeta. repeat split; try (destruct b; reflexivity).
  unfold createChatMessage_args, property; cbn [arg_data own_properties].
  destruct (truthy (default_arg VNull conversation_id)), b; reflexivity.
Qed.

(** C3: the query of [getConversationMessages] always has the key [user],
    has each of [conversation_id], [first_id] and [limit] exactly when that
    argument is truthy (then holding the argument), and has no other key; the
    query of [getConversations] always has the four keys [user], [first_id],
    [limit] and [pinned], an omitted one holding [null]. *)
Theorem conversation_queries_keys (user conversation_id first_id limit pinned : value) :
  let messages :=
    arg_params (getConversationMessages_args user conversation_id first_id limit) in
  let conversations :=
    arg_params (getConversations_args user first_id limit pinned) in
  (property messages "user" = Some user /\
   property messages "conversation_id" =
     (if truthy conversation_id then Some conversation_id else None) /\
   property messages "first_id" =
     (if truthy first_id then Some first_id else None) /\
   property messages "limit" = (if truthy limit then Some limit else None) /\
   keys messages =
     {[ "user" ]}
     ∪ (if truthy conversation_id then {[ "conversation_id" ]} else ∅)
     ∪ (if truthy first_id then {[ "first_id" ]} else ∅)
     ∪ (if truthy limit then {[ "limit" ]} else ∅)) /\
  (property conversations "user" = Some user /\
   property conversations "first_id" = Some (default_arg VNull first_id) /\
   property conversations "limit" = Some (default_arg VNull limit) /\
   property conversations "pinned" = Some (default_arg VNull pinned) /\
   keys conversations = {[ "user"; "first_id"; "limit"; "pinned" ]}).
Proof.
  cbn zeta. split.
  - unfold getConversationMessages_args, property, keys;
      cbn [arg_params own_properties].
    rewrite !truthy_default by reflexivity.
    destruct (truthy conversation_id) eqn:Hc;
      destruct (truthy first_id) eqn:Hf;
      destruct (truthy limit) eqn:Hl;
      rewrite ?(default_truthy _ _ Hc), ?(default_truthy _ _ Hf),
        ?(default_truthy _ _ Hl);
      repeat split; reflexivity.
  - repeat split; reflexivity.
Qed.

(** C4: the body of [createChatMessage] has no [conversation_id] key when
    the argument is falsy (omitted, [null], the empty string), and holds the
    argument under that key when it is truthy; in both cases it has the keys
    [inputs], [query], [user], [response_mode] and [files]. *)
Theorem createChatMessage_conversation_id
  (inputs query user stream conversation_id files : value) :
  let body :=
    arg_data
      (createChatMessage_args inputs query user stream conversation_id files) in
  property body "conversation_id" =
    (if truthy conversation_id then Some conversation_id else None) /\
  property body "inputs" = Some inputs /\
  property body "query" = Some query /\
  property body "user" = Some user /\
  property body "response_mode" =
    Some (VStr (if truthy stream then "streaming" else "blocking")) /\
  property body "files" = Some (default_arg VNull files) /\
  keys body =
    {[ "inputs"; "query"; "user"; "response_mode"; "files" ]}
    ∪ (if truthy conversation_id then {[ "conversation_id" ]} else ∅).
Proof.
  cbn zeta.
  unfold createChatMessage_args, property, keys; cbn [arg_data own_properties].
  rewrite !truthy_default by reflexivity.
  destruct (truthy conversation_id) eqn:Hc;
    rewrite ?(default_truthy _ _ Hc);
    destruct (truthy stream);
    repeat split; reflexivity.
Qed.

(** C8: the body of [runWorkflow] has exactly the keys [inputs], [user] and
    [response_mode], and no [files] key whatever the [files] argument is;
    the body of [createCompletionMessage] has a [files] key holding the
    [files] argument ([null] when it is left out). *)
Theorem runWorkflow_omits_files (inputs user stream files : value) :
  let workflow := arg_data (runWorkflow_args inputs user stream files) in
  let completion :=
    arg_data (createCompletionMessage_args inputs user stream files) in
  keys workflow = {[ "inputs"; "user"; "response_mode" ]} /\
  property workflow "files" = None /\
  property completion "files" = Some (default_arg VNull files) /\
  keys completion = {[ "inputs"; "user"; "response_mode"; "files" ]}.
Proof.
  cbn zeta. repeat split; reflexivity.
Qed.

(** ** The endpoint registry *)

(** C6: every operation dispatches with the method and the path of the
    interface table, a path parameter being spliced into the path as it is
    (a string id [s] gives "/conversations/" +:+ s +:+ "/name", nothing
    escaped); [renameConversation] is the POST to that path with body
    [{name, user, auto_generate}], and [deleteConversation] the DELETE to
    "/conversations/" +:+ id with body [{user}]. *)
Theorem endpoint_registry_table
  axios (message_id rating user data inputs query stream conversation_id files
         first_id limit pinned name auto_generate : value) (s : string) :
  let endpoint args := (arg_method args, arg_endpoint args) in
  endpoint (getApplicationParameters_args user)
    = (VStr "GET", VStr "/parameters") /\
  endpoint (messageFeedback_args message_id rating user)
    = (VStr "POST", VStr ("/messages/" +:+ ToString message_id +:+ "/feedbacks")) /\
  endpoint (createCompletionMessage_args inputs user stream files)
    = (VStr "POST", VStr "/completion-messages") /\
  endpoint (createChatMessage_args inputs query user stream conversation_id files)
    = (VStr "POST", VStr "/chat-messages") /\
  endpoint (getConversationMessages_args user conversation_id first_id limit)
    = (VStr "GET", VStr "/messages") /\
  endpoint (getConversations_args user first_id limit pinned)
    = (VStr "GET", VStr "/conversations") /\
  endpoint (renameConversation_args conversation_id name user auto_generate)
    = (VStr "POST",
       VStr ("/conversations/" +:+ ToString conversation_id +:+ "/name")) /\
  endpoint (deleteConversation_args conversation_id user)
    = (VStr "DELETE", VStr ("/conversations/" +:+ ToString conversation_id)) /\
  endpoint (fileUpload_args data) = (VStr "POST", VStr "/files/upload") /\
  endpoint (runWorkflow_args inputs user stream files)
    = (VStr "POST", VStr "/workflows/run") /\
  renameConversation axios (VStr s) name user auto_generate =
    sendRequest axios
      {| arg_method := VStr "POST";
         arg_endpoint := VStr ("/conversations/" +:+ s +:+ "/name");
         arg_data :=
           VObj {[ "name" := name; "user" := user;
                   "auto_generate" := auto_generate ]};
         arg_params := VUndefined;
         arg_stream := VUndefined;
         arg_headerParams := VUndefined |} /\
  deleteConversation axios (VStr s) user =
    sendRequest axios
      {| arg_method := VStr "DELETE";
         arg_endpoint := VStr ("/conversations/" +:+ s);
         arg_data := VObj {[ "user" := user ]};
         arg_params := VUndefined;
         arg_stream := VUndefined;
         arg_headerParams := VUndefined |}.
Proof. cbn zeta. repeat split; reflexivity. Qed.

(** The spec's round trip: [renameConversation("c1", "New", "u1", true)] on
    a client with the default base URL. *)
Example renameConversation_round_trip :
  requests
    (renameConversation echo_transport
       (VStr "c1") (VStr "New") (VStr "u1") (VBool true)
       (fresh (constructor (VStr "app-key") VUndefined))).2
  = [ {| Axios.method := VStr "POST";
         Axios.url := "https://api.dify.ai/v1/conversations/c1/name";
         Axios.data :=
           VObj {[ "name" := VStr "New"; "user" := VStr "u1";
                   "auto_generate" := VBool true ]};
         Axios.params := VNull;
         Axios.headers :=
           {[ "Authorization" := VStr "Bearer app-key";
              "Content-Type" := VStr "application/json" ]};
         Axios.responseType := "json" |} ].
Proof. reflexivity. Qed.

(** A path parameter is not escaped. *)
Example deleteConversation_no_escaping :
  arg_endpoint (deleteConversation_args (VStr "a b/../c?d=e") (VStr "u1"))
  = VStr "/conversations/a b/../c?d=e".
Proof. reflexivity. Qed.

(** ** The dispatcher *)

(** C5: [sendRequest] hands the transport one request, whose header map is
    the defaults [Authorization: "Bearer " + apiKey] and
    [Content-Type: "application/json"] with every key of the extra headers
    written over them; for [fileUpload] that map is exactly
    [Authorization] and [Content-Type: "multipart/form-data"], and no header
    in it is "application/json". *)
Theorem sendRequest_headers axios args data w :
  let defaults : gmap string value :=
    {[ "Authorization" := VStr ("Bearer " +:+ ToString (apiKey (this w)));
       "Content-Type" := VStr "application/json" ]} in
  (exists config,
     requests (sendRequest axios args w).2 = requests w ++ [config] /\
     forall k,
       Axios.headers config !! k =
         match property (default_arg (VObj ∅) (arg_headerParams args)) k with
         | Some v => Some v
         | None => defaults !! k
         end) /\
  (exists config,
     requests (fileUpload axios data w).2 = requests w ++ [config] /\
     Axios.headers config =
       {[ "Authorization" := VStr ("Bearer " +:+ ToString (apiKey (this w)));
          "Content-Type" := VStr "multipart/form-data" ]} /\
     Axios.headers config !! "Content-Type" = Some (VStr "multipart/form-data") /\
     forall k, Axios.headers config !! k <> Some (VStr "application/json")).
Proof.
  cbn zeta. split.
  - exists (request_envelope (this w) args).
    rewrite sendRequest_run. split; [reflexivity|].
    intros k. unfold request_envelope, property; cbn [Axios.headers].
    rewrite lookup_union.
    destruct (own_properties _ !! k) as [v|]; [|rewrite (left_id None _)];
      destruct (_ !! k); reflexivity.
  - exists (request_envelope (this w) (fileUpload_args data)).
    unfold fileUpload. rewrite sendRequest_run. split; [reflexivity|].
    assert (Hh : Axios.headers (request_envelope (this w) (fileUpload_args data)) =
              {[ "Authorization" := VStr ("Bearer " +:+ ToString (apiKey (this w)));
                 "Content-Type" := VStr "multipart/form-data" ]}).
    { apply map_eq; intros k. unfold request_envelope; cbn.
      rewrite lookup_union, !lookup_insert, ?lookup_singleton, ?lookup_empty.
      repeat case_decide; simplify_eq; reflexivity. }
    rewrite Hh. split; [reflexivity|]. split; [reflexivity|].
    intros k. rewrite lookup_insert, lookup_singleton.
    repeat case_decide; intros E; [| |discriminate E];
      injection E as E; cbv [String.append] in E; discriminate E.
Qed.

(** C9: one [sendRequest] call hands exactly one request to the transport,
    and when the transport rejects it, the promise [sendRequest] returns is
    rejected with the transport's reason, unchanged. *)
Theorem sendRequest_rejection_passes_through axios args w :
  exists config,
    requests (sendRequest axios args w).2 = requests w ++ [config] /\
    forall reason,
      axios (requests w) config = Axios.Rejected reason ->
      (sendRequest axios args w).1 = Normal (Axios.Rejected reason).
Proof.
  exists (request_envelope (this w) args). rewrite sendRequest_run.
  split; [reflexivity|]. intros reason H. cbn. rewrite H. reflexivity.
Qed.

Lemma sendRequest_rejection_passes_through_witness :
  (sendRequest failing_transport (messageFeedback_args (VStr "m1") (VNum 5) (VStr "u1"))
     (fresh (constructor (VStr "app-key") VUndefined))).1
  = Normal (Axios.Rejected status_500).
Proof.
  destruct (sendRequest_rejection_passes_through failing_transport
              (messageFeedback_args (VStr "m1") (VNum 5) (VStr "u1"))
              (fresh (constructor (VStr "app-key") VUndefined)))
    as [config [_ H]].
  apply H. reflexivity.
Defined.

(** ** The credential *)

(** C7, as the code has it: after any history of calls on an instance, a
    dispatch sends under [Authorization] the extra headers' own
    [Authorization] entry when the call is a [sendRequest] that supplies
    one, and "Bearer " followed by the key most recently set otherwise;
    every named operation is in the second case. *)
Theorem authorization_reflects_latest_key axios self history call args :
  dispatch_args call = Some args ->
  let w := run axios history (fresh self) in
  let bearer := VStr ("Bearer " +:+ ToString (latest_key (apiKey self) history)) in
  exists config,
    requests (invoke axios call w).2 = requests w ++ [config] /\
    Axios.headers config !! "Authorization" =
      Some (match property (arg_headerParams args) "Authorization" with
            | Some v => v
            | None => bearer
            end) /\
    ((forall a, call <> call_sendRequest a) ->
     Axios.headers config !! "Authorization" = Some bearer).
Proof.
  intros Hd w bearer.
  exists (request_envelope (this w) args).
  rewrite (invoke_dispatch_run _ _ _ _ Hd).
  split; [reflexivity|].
  assert (Hk : apiKey (this w) = latest_key (apiKey self) history)
    by apply (run_apiKey axios history (fresh self)).
  assert (Hh : Axios.headers (request_envelope (this w) args) !! "Authorization" =
            Some (match property (arg_headerParams args) "Authorization" with
                  | Some v => v
                  | None => bearer
                  end)).
  { unfold request_envelope, property; cbn [Axios.headers].
    rewrite lookup_union, Hk.
    destruct (arg_headerParams args); try reflexivity;
      cbn [default_arg own_properties];
      match goal with
      | |- context [?m !! "Authorization"] =>
          destruct (m !! "Authorization"); reflexivity
      end. }
  split; [exact Hh|].
  intros Hnamed. rewrite Hh.
  destruct call; inversion Hd; subst; try reflexivity.
  exfalso. eapply Hnamed. reflexivity.
Qed.

Lemma authorization_reflects_latest_key_witness :
  let history :=
    [call_getApplicationParameters (VStr "u1"); call_updateApiKey (VStr "key-2")] in
  let w := run echo_transport history (fresh (constructor (VStr "key-1") VUndefined)) in
  exists config,
    requests (invoke echo_transport (call_fileUpload (VFormData [("file", "a.txt")])) w).2
      = requests w ++ [config] /\
    Axios.headers config !! "Authorization" = Some (VStr "Bearer key-2").
Proof.
  intros history w.
  destruct (authorization_reflects_latest_key echo_transport
              (constructor (VStr "key-1") VUndefined) history
              (call_fileUpload (VFormData [("file", "a.txt")]))
              (fileUpload_args (VFormData [("file", "a.txt")])) eq_refl)
    as [config [Hr [_ Hb]]].
  exists config. split; [exact Hr|].
  apply Hb. intros a H. discriminate H.
Defined.

(** C7, as stated, fails: after [updateApiKey("key-2")], a [sendRequest]
    call whose extra headers carry [Authorization: "Basic abc"] sends that
    header, not "Bearer key-2". *)
Lemma authorization_overridden_by_extra_headers :
  ~ (forall axios self history call args config,
       dispatch_args call = Some args ->
       let w := run axios history (fresh self) in
       requests (invoke axios call w).2 = requests w ++ [config] ->
       Axios.headers config !! "Authorization" =
         Some (VStr ("Bearer " +:+ ToString (latest_key (apiKey self) history)))).
Proof.
  intros claim.
  set (args := {| arg_method := VStr "GET";
                  arg_endpoint := VStr "/parameters";
                  arg_data := VNull;
                  arg_params := VNull;
                  arg_stream := VBool false;
                  arg_headerParams :=
                    VObj (object_literal [("Authorization", VStr "Basic abc")]) |}).
  set (self := constructor (VStr "key-1") VUndefined).
  specialize (claim echo_transport self [call_updateApiKey (VStr "key-2")]
                (call_sendRequest args) args
                (request_envelope
                   {| apiKey := VStr "key-2"; baseUrl := VStr BASE_URL |} args)
                eq_refl eq_refl).
  vm_compute in claim. discriminate claim.
Qed.

(** ** Frame *)

(** C10: a call of any public method other than [updateApiKey] leaves the
    instance's [apiKey] and [baseUrl] as they were, however the transport
    settles the request. *)
Theorem operations_preserve_client_state axios call w :
  (forall k, call <> call_updateApiKey k) ->
  this (invoke axios call w).2 = this w.
Proof.
  intros Hcall.
  destruct (dispatch_args call) as [args|] eqn:Hd.
  - rewrite (invoke_dispatch_run _ _ _ _ Hd). reflexivity.
  - destruct (dispatch_args_None _ Hd) as [k ->]. exfalso. eapply Hcall. reflexivity.
Qed.

Lemma operations_preserve_client_state_witness :
  let w := fresh (constructor (VStr "app-key") (VStr "http://localhost/v1")) in
  this (invoke failing_transport
          (call_createChatMessage (VObj ∅) (VStr "hi") (VStr "u1")
             (VBool true) VUndefined VUndefined) w).2
  = {| apiKey := VStr "app-key"; baseUrl := VStr "http://localhost/v1" |}.
Proof.
  intros w.
  apply (operations_preserve_client_state failing_transport
           (call_createChatMessage (VObj ∅) (VStr "hi") (VStr "u1")
              (VBool true) VUndefined VUndefined) w).
  intros k H. discriminate H.
Defined.


(** * Further properties of the code *)

(** ** Helper lemmas on histories *)

Lemma run_cons axios call history w :
  run axios (call :: history) w = run axios history (invoke axios call w).2.
Proof. reflexivity. Qed.

(** The world a call leaves: a dispatch appends its request and keeps the
    instance, [updateApiKey] replaces the key and appends nothing. *)
Lemma invoke_world axios call w :
  (invoke axios call w).2 =
    match dispatch_args call with
    | Some args =>
        {| this := this w;
           requests := requests w ++ [request_envelope (this w) args] |}
    | None =>
        {| this := {| apiKey := latest_key (apiKey (this w)) [call];
                      baseUrl := baseUrl (this w) |};
           requests := requests w |}
    end.
Proof.
  destruct (dispatch_args call) as [args|] eqn:Hd.
  - rewrite (invoke_dispatch_run _ _ _ _ Hd). reflexivity.
  - destruct (dispatch_args_None _ Hd) as [k ->]. reflexivity.
Qed.

Lemma run_baseUrl axios history w :
  baseUrl (this (run axios history w)) = baseUrl (this w).
Proof.
  revert w. induction history as [|call history IH]; intros w; [reflexivity|].
  rewrite run_cons, IH, invoke_world.
  destruct (dispatch_args call); reflexivity.
Qed.

(** Every request in the log after a history was either there before, or
    is the envelope of one of the history's dispatches, built on the
    instance's base URL and the key it held then. *)
Lemma run_requests_elem axios history w config :
  config ∈ requests (run axios history w) ->
  config ∈ requests w \/
  exists call args k,
    call ∈ history /\ dispatch_args call = Some args /\
    config = request_envelope {| apiKey := k; baseUrl := baseUrl (this w) |} args.
Proof.
  induction history as [|call history IH] using rev_ind; [left; assumption|].
  rewrite run_snoc, invoke_world.
  destruct (dispatch_args call) as [args|] eqn:Hd; cbn [requests].
  - rewrite elem_of_app, list_elem_of_singleton. intros [Hin| ->].
    + destruct (IH Hin) as [?|(c & a & k & Hc & Ha & ->)]; [left; assumption|].
      right. exists c, a, k. rewrite elem_of_app. auto.
    + right. exists call, args, (apiKey (this (run axios history w))).
      rewrite elem_of_app, list_elem_of_singleton.
      repeat split; auto.
      rewrite <- (run_baseUrl axios history w).
      destruct (this (run axios history w)); reflexivity.
  - intros Hin.
    destruct (IH Hin) as [?|(c & a & k & Hc & Ha & ->)]; [left; assumption|].
    right. exists c, a, k. rewrite elem_of_app. auto.
Qed.

Lemma string_app_cons a s t : String a s +:+ t = String a (s +:+ t).
Proof. reflexivity. Qed.

Lemma string_app_length s t :
  String.length (s +:+ t) = String.length s + String.length t.
Proof.
  induction s as [|a s IH]; [reflexivity|].
  rewrite string_app_cons. cbn [String.length]. rewrite IH. reflexivity.
Qed.

Lemma string_app_inj_r t s1 s2 : s1 +:+ t = s2 +:+ t -> s1 = s2.
Proof.
  revert s2. induction s1 as [|a s1 IH]; intros [|b s2] H; [reflexivity| | |].
  - apply (f_equal String.length) in H.
    rewrite string_app_cons in H. cbn [String.length] in H.
    rewrite !string_app_length in H. cbn in H. lia.
  - apply (f_equal String.length) in H.
    rewrite string_app_cons in H. cbn [String.length] in H.
    rewrite !string_app_length in H. cbn in H. lia.
  - rewrite !string_app_cons in H. injection H as -> H.
    f_equal. apply IH, H.
Qed.

Lemma own_properties_default v :
  own_properties (default_arg (VObj ∅) v) = own_properties v.
Proof. destruct v; reflexivity. Qed.

(** ** Histories: what a client sends over its lifetime *)

(** X1: every request a client ever sends goes to the base URL it was
    constructed with, followed by the endpoint of the call that sent it;
    no call, [updateApiKey] included, changes the base URL. *)
Theorem run_requests_use_constructed_base_url axios self history config :
  config ∈ requests (run axios history (fresh self)) ->
  exists call args,
    call ∈ history /\ dispatch_args call = Some args /\
    Axios.url config = ToString (baseUrl self) +:+ ToString (arg_endpoint args).
Proof.
  intros Hin.
  destruct (run_requests_elem _ _ _ _ Hin) as [Hnil|(call & args & k & Hc & Hd & ->)].
  - cbn in Hnil. inversion Hnil.
  - exists call, args. repeat split; assumption.
Qed.

Lemma run_requests_use_constructed_base_url_witness :
  let history :=
    [call_updateApiKey (VStr "key-2");
     call_deleteConversation (VStr "c1") (VStr "u1")] in
  let self := constructor (VStr "key-1") (VStr "http://localhost:5001/v1") in
  let config :=
    request_envelope
      {| apiKey := VStr "key-2"; baseUrl := VStr "http://localhost:5001/v1" |}
      (deleteConversation_args (VStr "c1") (VStr "u1")) in
  config ∈ requests (run echo_transport history (fresh self)) /\
  exists call args,
    call ∈ history /\ dispatch_args call = Some args /\
    Axios.url config = "http://localhost:5001/v1" +:+ ToString (arg_endpoint args).
Proof.
  intros history self config.
  assert (Hin : config ∈ requests (run echo_transport history (fresh self)))
    by (apply list_elem_of_singleton; reflexivity).
  split; [exact Hin|].
  exact (run_requests_use_constructed_base_url echo_transport self history config Hin).
Defined.

(** X2: after any history of calls the instance holds the key most recently
    set (the construction key if none was) and the base URL it was
    constructed with. *)
Theorem run_final_state axios self history :
  this (run axios history (fresh self)) =
    {| apiKey := latest_key (apiKey self) history; baseUrl := baseUrl self |}.
Proof.
  pose proof (run_apiKey axios history (fresh self)) as Hk.
  pose proof (run_baseUrl axios history (fresh self)) as Hb.
  destruct (this (run axios history (fresh self))) as [k b].
  cbn in Hk, Hb. subst. reflexivity.
Qed.

(** X3: the request log only grows, and by exactly one request per call
    other than [updateApiKey]: earlier requests are never altered, nothing
    is retried and no call is dropped. *)
Theorem run_requests_count axios history w :
  requests w `prefix_of` requests (run axios history w) /\
  length (requests (run axios history w)) =
    length (requests w) + length (List.filter dispatches history).
Proof.
  revert w. induction history as [|call history IH]; intros w.
  - split; [reflexivity|]. cbn. lia.
  - rewrite run_cons. destruct (IH (invoke axios call w).2) as [Hp Hl].
    rewrite Hl. rewrite invoke_world in Hp |- *. clear Hl.
    destruct call; cbn [dispatch_args dispatches List.filter requests length] in *;
      rewrite ?length_app; cbn [length];
      (split; [try exact Hp; eapply prefix_app_l; exact Hp | lia]).
Qed.

(** X4: what a client sends does not depend on what the transport answers:
    two transports leave the same instance and the same request log after
    the same history (no response is fed back into a later request). *)
Theorem run_independent_of_transport axios1 axios2 history w :
  run axios1 history w = run axios2 history w.
Proof.
  revert w. induction history as [|call history IH]; intros w; [reflexivity|].
  rewrite !run_cons, (invoke_world axios1), (invoke_world axios2). apply IH.
Qed.

(** X5: [sendRequest] never throws synchronously and returns the
    transport's own promise for the one request it made: a response is
    handed back unchanged, a pending request stays pending. *)
Theorem sendRequest_returns_transport_promise axios args w :
  exists config,
    requests (sendRequest axios args w).2 = requests w ++ [config] /\
    (sendRequest axios args w).1 = Normal (axios (requests w) config).
Proof.
  exists (request_envelope (this w) args). rewrite sendRequest_run.
  split; reflexivity.
Qed.

(** ** Response handling *)

(** X6: for every value of the [stream] argument, boolean or not, omitted
    or not, the request that [createCompletionMessage], [runWorkflow] and
    [createChatMessage] hand to the transport asks for a streamed response
    exactly when its body says "streaming": both follow the truthiness of
    [stream]. *)
Theorem streaming_mode_reaches_transport
  axios (inputs query user stream conversation_id files : value) w :
  let agrees (m : M Axios.Promise) :=
    exists config,
      requests (m w).2 = requests w ++ [config] /\
      property (Axios.data config) "response_mode" =
        Some (VStr (if truthy stream then "streaming" else "blocking")) /\
      Axios.responseType config = (if truthy stream then "stream" else "json") in
  agrees (createCompletionMessage axios inputs user stream files) /\
  agrees (runWorkflow axios inputs user stream files) /\
  agrees (createChatMessage axios inputs query user stream conversation_id files).
Proof.
  cbn zeta.
  unfold createCompletionMessage, runWorkflow, createChatMessage.
  repeat split; eexists; rewrite sendRequest_run;
    (split; [reflexivity|]);
    unfold request_envelope, property;
    cbn [Axios.data Axios.responseType arg_data arg_stream default_arg
         own_properties createCompletionMessage_args runWorkflow_args
         createChatMessage_args];
    rewrite !truthy_default by reflexivity;
    destruct (truthy stream);
    destruct (truthy conversation_id);
    split; reflexivity.
Qed.

(** X7: a named operation without a [stream] parameter always asks for a
    buffered JSON response, whatever its arguments. *)
Theorem operations_without_stream_request_json axios call args w :
  dispatch_args call = Some args ->
  takes_stream call = false ->
  exists config,
    requests (invoke axios call w).2 = requests w ++ [config] /\
    Axios.responseType config = "json".
Proof.
  intros Hd Hs. exists (request_envelope (this w) args).
  rewrite (invoke_dispatch_run _ _ _ _ Hd). split; [reflexivity|].
  destruct call; try discriminate Hs; inversion Hd; reflexivity.
Qed.

Lemma operations_without_stream_request_json_witness :
  exists config,
    requests (invoke echo_transport
                (call_getConversations (VStr "u1") VUndefined (VNum 20) VUndefined)
                (fresh (constructor (VStr "app-key") VUndefined))).2
      = [] ++ [config] /\
    Axios.responseType config = "json".
Proof.
  exact (operations_without_stream_request_json echo_transport
           (call_getConversations (VStr "u1") VUndefined (VNum 20) VUndefined)
           (getConversations_args (VStr "u1") VUndefined (VNum 20) VUndefined)
           (fresh (constructor (VStr "app-key") VUndefined))
           eq_refl eq_refl).
Defined.

(** X8: a named operation that uses GET sends no body and an object as
    query; one that uses POST or DELETE sends no query. *)
Theorem get_requests_carry_no_body axios call args w :
  dispatch_args call = Some args ->
  (forall a, call <> call_sendRequest a) ->
  exists config,
    requests (invoke axios call w).2 = requests w ++ [config] /\
    ((Axios.method config = VStr "GET" /\
      Axios.data config = VNull /\
      exists query, Axios.params config = VObj query) \/
     ((Axios.method config = VStr "POST" \/ Axios.method config = VStr "DELETE") /\
      Axios.params config = VNull)).
Proof.
  intros Hd Hnamed. exists (request_envelope (this w) args).
  rewrite (invoke_dispatch_run _ _ _ _ Hd). split; [reflexivity|].
  destruct call; inversion Hd; subst; cbn;
    try (exfalso; eapply Hnamed; reflexivity);
    try (left; repeat split; eexists; reflexivity);
    right; split; auto.
Qed.

Lemma get_requests_carry_no_body_witness :
  exists config,
    requests (invoke echo_transport
                (call_getConversationMessages (VStr "u1") (VStr "c1") VUndefined VUndefined)
                (fresh (constructor (VStr "app-key") VUndefined))).2
      = [] ++ [config] /\
    ((Axios.method config = VStr "GET" /\
      Axios.data config = VNull /\
      exists query, Axios.params config = VObj query) \/
     ((Axios.method config = VStr "POST" \/ Axios.method config = VStr "DELETE") /\
      Axios.params config = VNull)).
Proof.
  apply (get_requests_carry_no_body echo_transport
           (call_getConversationMessages (VStr "u1") (VStr "c1") VUndefined VUndefined)
           (getConversationMessages_args (VStr "u1") (VStr "c1") VUndefined VUndefined)
           (fresh (constructor (VStr "app-key") VUndefined)) eq_refl).
  intros a H. discriminate H.
Defined.

(** ** Headers *)

(** X9: extra headers replace a default only under exactly the same key:
    when they have no own "Content-Type" entry (a differently cased
    "content-type" does not count), the request still declares
    "application/json" under "Content-Type", beside every extra header; the
    header names sent are those of the extra headers and the two defaults. *)
Theorem header_override_is_case_sensitive axios args w :
  property (arg_headerParams args) "Content-Type" = None ->
  exists config,
    requests (sendRequest axios args w).2 = requests w ++ [config] /\
    Axios.headers config !! "Content-Type" = Some (VStr "application/json") /\
    (forall k v, property (arg_headerParams args) k = Some v ->
                 Axios.headers config !! k = Some v) /\
    dom (Axios.headers config) =
      keys (arg_headerParams args) ∪ {[ "Authorization"; "Content-Type" ]}.
Proof.
  unfold property, keys. intros Hct.
  exists (request_envelope (this w) args). rewrite sendRequest_run.
  split; [reflexivity|].
  unfold request_envelope; cbn [Axios.headers].
  rewrite own_properties_default.
  split; [|split].
  - rewrite lookup_union, Hct. reflexivity.
  - intros k v Hk. rewrite lookup_union, Hk.
    match goal with |- Some _ ∪ ?o = _ => destruct o end; reflexivity.
  - rewrite dom_union_L, dom_insert_L, dom_singleton_L. reflexivity.
Qed.

Lemma header_override_is_case_sensitive_witness :
  exists config,
    requests
      (sendRequest echo_transport
         {| arg_method := VStr "POST";
            arg_endpoint := VStr "/files/upload";
            arg_data := VFormData [("file", "a.txt")];
            arg_params := VNull;
            arg_stream := VBool false;
            arg_headerParams :=
              VObj (object_literal [("content-type", VStr "multipart/form-data")]) |}
         (fresh (constructor (VStr "app-key") VUndefined))).2
      = [] ++ [config] /\
    Axios.headers config !! "Content-Type" = Some (VStr "application/json") /\
    Axios.headers config !! "content-type" = Some (VStr "multipart/form-data").
Proof.
  destruct (header_override_is_case_sensitive echo_transport
              {| arg_method := VStr "POST";
                 arg_endpoint := VStr "/files/upload";
                 arg_data := VFormData [("file", "a.txt")];
                 arg_params := VNull;
                 arg_stream := VBool false;
                 arg_headerParams :=
                   VObj (object_literal [("content-type", VStr "multipart/form-data")]) |}
              (fresh (constructor (VStr "app-key") VUndefined)) eq_refl)
    as (config & Hr & Hct & Hextra & _).
  exists config. split; [exact Hr|]. split; [exact Hct|].
  apply Hextra. reflexivity.
Defined.

(** X10: every request a client ever sends has an [Authorization] and a
    [Content-Type] header; extra headers can replace their values but not
    remove them. *)
Theorem every_request_carries_default_headers axios self history config :
  config ∈ requests (run axios history (fresh self)) ->
  is_Some (Axios.headers config !! "Authorization") /\
  is_Some (Axios.headers config !! "Content-Type").
Proof.
  intros Hin.
  destruct (run_requests_elem _ _ _ _ Hin) as [Hnil|(call & args & k & _ & _ & ->)].
  - cbn in Hnil. inversion Hnil.
  - unfold request_envelope; cbn [Axios.headers].
    rewrite !lookup_union.
    split; match goal with
           | |- context [?m !! ?key] => destruct (m !! key)
           end; cbn; eauto.
Qed.

Lemma every_request_carries_default_headers_witness :
  let history :=
    [call_fileUpload (VFormData [("file", "a.txt")]);
     call_updateApiKey VUndefined] in
  let self := constructor (VStr "key-1") VUndefined in
  let config := request_envelope self (fileUpload_args (VFormData [("file", "a.txt")])) in
  config ∈ requests (run failing_transport history (fresh self)) /\
  is_Some (Axios.headers config !! "Authorization") /\
  is_Some (Axios.headers config !! "Content-Type").
Proof.
  intros history self config.
  assert (Hin : config ∈ requests (run failing_transport history (fresh self)))
    by (apply list_elem_of_singleton; reflexivity).
  split; [exact Hin|].
  exact (every_request_carries_default_headers failing_transport self history config Hin).
Defined.

(** ** Paths *)

(** X11: the path builders with a parameter send distinct string ids to
    distinct paths. *)
Theorem path_builders_injective (s1 s2 : string) :
  s1 <> s2 ->
  routes.url routes.feedback [VStr s1] <> routes.url routes.feedback [VStr s2] /\
  routes.url routes.renameConversation [VStr s1]
    <> routes.url routes.renameConversation [VStr s2] /\
  routes.url routes.deleteConversation [VStr s1]
    <> routes.url routes.deleteConversation [VStr s2].
Proof.
  intros Hne. cbn [routes.url routes.feedback routes.renameConversation
                   routes.deleteConversation arg nth ToString].
  repeat split; intros H; apply Hne.
  - apply (inj (String.app "/messages/")) in H.
    apply string_app_inj_r in H. exact H.
  - apply (inj (String.app "/conversations/")) in H.
    apply string_app_inj_r in H. exact H.
  - apply (inj (String.app "/conversations/")) in H. exact H.
Qed.

Lemma path_builders_injective_witness :
  routes.url routes.renameConversation [VStr "c1"]
    <> routes.url routes.renameConversation [VStr "c2"].
Proof.
  apply (path_builders_injective "c1" "c2"). discriminate.
Defined.

(** ** The base client's payloads *)

(** X12: what the three base operations hand to the transport:
    [messageFeedback] the body [{rating, user}] and no query,
    [getApplicationParameters] no body and the query [{user}], [fileUpload]
    the caller's form data as it is ([null] when it is left out) and no
    query. *)
Theorem base_operations_payloads axios (message_id rating user data : value) w :
  (exists config,
     requests (messageFeedback axios message_id rating user w).2
       = requests w ++ [config] /\
     Axios.data config = VObj {[ "rating" := rating; "user" := user ]} /\
     Axios.params config = VNull) /\
  (exists config,
     requests (getApplicationParameters axios user w).2 = requests w ++ [config] /\
     Axios.data config = VNull /\
     Axios.params config = VObj {[ "user" := user ]}) /\
  (exists config,
     requests (fileUpload axios data w).2 = requests w ++ [config] /\
     Axios.data config = default_arg VNull data /\
     Axios.params config = VNull).
Proof.
  unfold messageFeedback, getApplicationParameters, fileUpload.
  repeat split; eexists; rewrite sendRequest_run;
    (split; [reflexivity|]); split; reflexivity.
Qed.

(** ** The user directory helper *)

(** X13: [fetchUsers] rejects with the reason [fetch] rejects with, rejects
    with the parser's error when the body of the response is not JSON, and
    otherwise resolves with the parsed body, whatever the status of the
    response is: an error status is not turned into a rejection. *)
Theorem fetchUsers_settles fetch JSON_parse url :
  (forall reason,
     fetch url = Fetch.Rejected reason ->
     Fetch.fetchUsers fetch JSON_parse url = Fetch.Rejected reason) /\
  (forall r syntax_error,
     fetch url = Fetch.Fulfilled r ->
     JSON_parse (Fetch.text r) = inr syntax_error ->
     Fetch.fetchUsers fetch JSON_parse url = Fetch.Rejected syntax_error) /\
  (forall r parsed,
     fetch url = Fetch.Fulfilled r ->
     JSON_parse (Fetch.text r) = inl parsed ->
     Fetch.fetchUsers fetch JSON_parse url = Fetch.Fulfilled parsed).
Proof.
  unfold Fetch.fetchUsers, Fetch.json.
  repeat split.
  - intros reason H. rewrite H. reflexivity.
  - intros r e H Hp. rewrite H. cbn. rewrite Hp. reflexivity.
  - intros r v H Hp. rewrite H. cbn. rewrite Hp. reflexivity.
Qed.

Lemma fetchUsers_settles_witness :
  let not_found :=
    {| Fetch.ok := false; Fetch.status := 404; Fetch.text := "{}" |} in
  let fetch (_ : string) := Fetch.Fulfilled not_found in
  let JSON_parse (body : string) : value + value :=
    if String.eqb body "{}" then inl (VObj ∅) else inr (VStr "SyntaxError") in
  Fetch.fetchUsers fetch JSON_parse "/api/users" = Fetch.Fulfilled (VObj ∅).
Proof.
  intros not_found fetch JSON_parse.
  destruct (fetchUsers_settles fetch JSON_parse "/api/users") as (_ & _ & H).
  apply (H not_found (VObj ∅)); reflexivity.
Defined.
